(** * tensorpack/train/multigpu.py: the multi-GPU trainer facades

    A shallow embedding of [apply_prefetch_policy], of the three trainer
    classes ([SyncMultiGPUTrainerParameterServer],
    [SyncMultiGPUTrainerReplicated], [AsyncMultiGPUTrainer]), of the alias
    [SyncMultiGPUTrainer] and of [MultiGPUTrainerBase.build_on_multi_tower].

    Python objects that the module mutates (the [TrainConfig] it is handed,
    the default graph the builders write to) live in a [World] that is
    threaded through every call; an exception leaves the world as it was
    at the point of the raise, as in Python. *)

From Stdlib Require Import List String Bool ZArith Lia DecimalString DecimalPos DecimalZ.
Import ListNotations.
Open Scope string_scope.

Set Implicit Arguments.
Set Warnings "-register-all".

(** ** Collaborators that the module only holds references to *)

(** The classes of the objects that travel through the module without
    being inspected by it. *)
Class Universe : Type := {
  DataFlow : Type;   (* what [config.dataflow] holds *)
  Model : Type;      (* what [config.model] holds: a ModelDesc *)
  InputDesc : Type;  (* what [model.get_inputs_desc()] returns *)
  Op : Type;         (* an operation of the graph *)
  Hook : Type;       (* a callback object of any class other than RunOp *)
  Graph : Type       (* the default graph under construction *)
}.

(** ** Exceptions *)

Inductive Exn : Type :=
| AssertionError (msg : option string)   (* [assert cond] / [assert cond, msg] *)
| AttributeError (attr : string)         (* attribute access on [None] *)
| Raised (what : string).                (* anything a collaborator raises *)

Inductive Result (A : Type) : Type :=
| Raise (e : Exn)
| Return (a : A).

Arguments Raise {A} e.
Arguments Return {A} a.

Definition is_assertion_error {A} (r : Result A) : bool :=
  match r with
  | Raise (AssertionError _) => true
  | _ => false
  end.

Definition is_return {A} (r : Result A) : bool :=
  match r with
  | Return _ => true
  | Raise _ => false
  end.

(** [str(k)] for a Python int. *)
Definition str (k : Z) : string := NilZero.string_of_int (Z.to_int k).

Definition is_some {A} (o : option A) : bool :=
  match o with
  | Some _ => true
  | None => false
  end.

(** A keyword argument with a default value: [None] when the caller left
    it out. *)
Definition kwarg {A} (default : A) (given : option A) : A :=
  match given with
  | Some a => a
  | None => default
  end.

Section Embedding.

Context {U : Universe}.

(** ** graph_builder.input_source: the classes the module constructs or
    tests with [isinstance] *)

Inductive InputSource : Type :=
| QueueInput (ds : DataFlow)
| StagingInputWrapper (input : option InputSource) (devices : list string)
| DummyConstantInput (shapes : list (list Z))
| OtherInput (name : string).   (* FeedInput, TensorInput, ... *)

(** [isinstance(x, (StagingInputWrapper, DummyConstantInput))]; [None] is
    an instance of neither. *)
Definition isinstance_staging_or_dummy (x : option InputSource) : bool :=
  match x with
  | Some (StagingInputWrapper _ _) => true
  | Some (DummyConstantInput _) => true
  | _ => false
  end.

(** ** callbacks.graph.RunOp

    The class is defined in callbacks/graph.py; a [RunOp] object is
    recorded here as the arguments this module passes to its
    constructor. *)

Record RunOp : Type := mkRunOp {
  setup_func : unit -> Op;
  run_before : bool;
  run_as_trigger : bool;
  verbose : bool
}.

Inductive Callback : Type :=
| RunOpCallback (cb : RunOp)
| OtherCallback (h : Hook).

(** ** TrainConfig *)

Record TrainConfig : Type := mkTrainConfig {
  data : option InputSource;
  dataflow : option DataFlow;
  model : option Model;
  tower : list Z;
  callbacks : list Callback
}.

Definition with_data (d : option InputSource) (c : TrainConfig) : TrainConfig :=
  mkTrainConfig d (dataflow c) (model c) (tower c) (callbacks c).

Definition with_dataflow (d : option DataFlow) (c : TrainConfig) : TrainConfig :=
  mkTrainConfig (data c) d (model c) (tower c) (callbacks c).

Definition with_callbacks (cbs : list Callback) (c : TrainConfig) : TrainConfig :=
  mkTrainConfig (data c) (dataflow c) (model c) (tower c) cbs.

(** ** The world: the one [config] object the caller passes in, the
    default graph, and whether [tf.test.is_gpu_available()] answers yes *)

Record World : Type := mkWorld {
  config : TrainConfig;
  graph : Graph;
  gpu_available : bool
}.

Definition with_config (c : TrainConfig) (w : World) : World :=
  mkWorld c (graph w) (gpu_available w).

Definition with_graph (g : Graph) (w : World) : World :=
  mkWorld (config w) g (gpu_available w).

(** ** State-and-exception monad *)

Definition M (A : Type) : Type := World -> Result A * World.

Definition ret {A} (a : A) : M A := fun w => (Return a, w).

Definition raise {A} (e : Exn) : M A := fun w => (Raise e, w).

Definition bind {A B} (m : M A) (k : A -> M B) : M B :=
  fun w =>
    match m w with
    | (Return a, w') => k a w'
    | (Raise e, w') => (Raise e, w')
    end.

Notation "x <- m ;; k" := (bind m (fun x => k))
  (at level 100, m at next level, right associativity).
Notation "m ;;; k" := (bind m (fun _ => k))
  (at level 100, right associativity).

Definition get_config : M TrainConfig := fun w => (Return (config w), w).

Definition modify_config (f : TrainConfig -> TrainConfig) : M unit :=
  fun w => (Return tt, with_config (f (config w)) w).

Definition is_gpu_available : M bool := fun w => (Return (gpu_available w), w).

Definition assert_ (cond : bool) (msg : option string) : M unit :=
  if cond then ret tt else raise (AssertionError msg).

(** Code that only sees the graph, never the config. *)
Definition GM (A : Type) : Type := Graph -> Result A * Graph.

Definition on_graph {A} (m : GM A) : M A :=
  fun w => let (r, g) := m (graph w) in (r, with_graph g w).

(** ** apply_prefetch_policy *)

Definition apply_prefetch_policy (gpu_prefetch : option bool) : M unit :=
  let gpu_prefetch := kwarg true gpu_prefetch in
  c <- get_config ;;
  assert_ ((is_some (data c) || is_some (dataflow c)) && is_some (model c)) None ;;;
  match data c, dataflow c with
  | None, Some df =>
      (* always use Queue prefetch *)
      modify_config (with_data (Some (QueueInput df))) ;;;
      modify_config (with_dataflow None)
  | _, _ => ret tt
  end ;;;
  c <- get_config ;;
  if (1 <? List.length (tower c))%nat && gpu_prefetch then
    avail <- is_gpu_available ;;
    assert_ avail None ;;;
    c <- get_config ;;
    if negb (isinstance_staging_or_dummy (data c)) then
      let devices := map (fun k => "/gpu:" ++ str k) (tower c) in
      modify_config (with_data (Some (StagingInputWrapper (data c) devices)))
    else ret tt
  else ret tt.

(** The condition of the [assert] that opens [apply_prefetch_policy]. *)
Definition required_fields_ok (c : TrainConfig) : bool :=
  (is_some (data c) || is_some (dataflow c)) && is_some (model c).

(** The config once the dataflow, if it is the only source, has been
    turned into a [QueueInput]. *)
Definition normalize (c : TrainConfig) : TrainConfig :=
  match data c, dataflow c with
  | None, Some df => with_dataflow None (with_data (Some (QueueInput df)) c)
  | _, _ => c
  end.

Definition gpu_devices (c : TrainConfig) : list string :=
  map (fun k => "/gpu:" ++ str k) (tower c).

(** The config once its input source has been wrapped for staging,
    unless it stages already or is a constant input. *)
Definition staged (c : TrainConfig) : TrainConfig :=
  if isinstance_staging_or_dummy (data c) then c
  else with_data (Some (StagingInputWrapper (data c) (gpu_devices c))) c.

(** Exactly one of [config.data] and [config.dataflow] is not [None]. *)
Definition exactly_one_source (c : TrainConfig) : Prop :=
  xorb (is_some (data c)) (is_some (dataflow c)) = true.

(** ** What the module calls but does not define

    [get_inputs_desc] is the model's method of that name; [input_setup] is
    [InputSource.setup]; the three [*_build] functions stand for
    constructing the builder of graph_builder.training and calling its
    [build] with the input source, the [get_cost] closure over the model
    and the model's [get_optimizer].  All of them work on the graph and
    have no reference to the config.  [default_device] names the device of
    a tower for which no explicit device was given. *)
Class Collaborators : Type := {
  get_inputs_desc : Model -> GM InputDesc;
  input_setup : InputSource -> InputDesc -> GM (list Callback);
  SyncMultiGPUParameterServerBuilder_build :
    list Z -> string -> InputSource -> Model -> GM Op;
  SyncMultiGPUReplicatedBuilder_build :
    list Z -> InputSource -> Model -> GM (Op * Op);
  AsyncMultiGPUBuilder_build :
    list Z -> bool -> InputSource -> Model -> GM Op;
  default_device : Z -> string
}.

Context {C : Collaborators}.

(** ** The trainer objects *)

Inductive TrainerClass : Type :=
| ParameterServerCls (_ps_device : string)
| ReplicatedCls
| AsyncCls (_scale_gradient : bool).

Record Trainer : Type := mkTrainer {
  cls : TrainerClass;
  _input_source : option InputSource;
  self_model : option Model;       (* [self.model] *)
  train_op : option Op             (* [self.train_op]; unset before [_setup] *)
}.

Definition with_train_op (op : Op) (self : Trainer) : Trainer :=
  mkTrainer (cls self) (_input_source self) (self_model self) (Some op).

(** Modelled from the spec: the base class [Trainer] (train/base.py) is not
    among the sources.  The spec keeps construction and [setup] apart
    ("TrainerFacade.setup()" starts the control flow) and has the trainer
    consume the config without owning it, so the base constructor keeps a
    reference to the caller's config (the one of the world) and reads
    [config.model] into [self.model]. *)
Definition Trainer__init__ (k : TrainerClass) (src : option InputSource)
  : M Trainer :=
  c <- get_config ;;
  ret (mkTrainer k src (model c) None).

(** ** SyncMultiGPUTrainerParameterServer *)

Definition SyncMultiGPUTrainerParameterServer
    (ps_device : option string) (gpu_prefetch : option bool) : M Trainer :=
  let ps_device := kwarg "gpu" ps_device in
  let gpu_prefetch := kwarg true gpu_prefetch in
  apply_prefetch_policy (Some gpu_prefetch) ;;;
  c <- get_config ;;
  let input_source := data c in
  assert_ (existsb (String.eqb ps_device) ["gpu"; "cpu"]) (Some ps_device) ;;;
  Trainer__init__ (ParameterServerCls ps_device) input_source.

(** Looking up a method on [obj]: an [AttributeError] when [obj] is
    [None]. *)
Definition method_of {A} (obj : option A) (name : string) : M A :=
  match obj with
  | Some a => ret a
  | None => raise (AttributeError name)
  end.

(** [self.config.callbacks.extend(l)] *)
Definition callbacks_extend (l : list Callback) : M unit :=
  modify_config (fun c => with_callbacks (callbacks c ++ l) c).

Definition SyncMultiGPUTrainerParameterServer_setup (ps_device : string)
    (self : Trainer) : M Trainer :=
  src <- method_of (_input_source self) "setup" ;;
  m <- method_of (self_model self) "get_inputs_desc" ;;
  desc <- on_graph (get_inputs_desc m) ;;
  cbs <- on_graph (input_setup src desc) ;;
  c <- get_config ;;
  op <- on_graph
          (SyncMultiGPUParameterServerBuilder_build (tower c) ps_device src m) ;;
  let self := with_train_op op self in
  callbacks_extend cbs ;;;
  ret self.

(** ** SyncMultiGPUTrainer *)

Definition SyncMultiGPUTrainer : M Trainer :=
  SyncMultiGPUTrainerParameterServer (Some "gpu") None.

(** ** SyncMultiGPUTrainerReplicated *)

Definition SyncMultiGPUTrainerReplicated (gpu_prefetch : option bool)
  : M Trainer :=
  let gpu_prefetch := kwarg true gpu_prefetch in
  apply_prefetch_policy (Some gpu_prefetch) ;;;
  c <- get_config ;;
  let input_source := data c in
  Trainer__init__ ReplicatedCls input_source.

Definition SyncMultiGPUTrainerReplicated_setup (self : Trainer) : M Trainer :=
  src <- method_of (_input_source self) "setup" ;;
  m <- method_of (self_model self) "get_inputs_desc" ;;
  desc <- on_graph (get_inputs_desc m) ;;
  cbs <- on_graph (input_setup src desc) ;;
  c <- get_config ;;
  ops <- on_graph (SyncMultiGPUReplicatedBuilder_build (tower c) src m) ;;
  let (op, post_init_op) := ops in
  let self := with_train_op op self in
  let cb := mkRunOp (fun _ => post_init_op) true true true in
  callbacks_extend (cbs ++ [RunOpCallback cb]) ;;;
  ret self.

(** ** AsyncMultiGPUTrainer *)

Definition AsyncMultiGPUTrainer (scale_gradient : option bool) : M Trainer :=
  let scale_gradient := kwarg true scale_gradient in
  apply_prefetch_policy None ;;;
  c <- get_config ;;
  let input_source := data c in
  Trainer__init__ (AsyncCls scale_gradient) input_source.

Definition AsyncMultiGPUTrainer_setup (scale_gradient : bool)
    (self : Trainer) : M Trainer :=
  src <- method_of (_input_source self) "setup" ;;
  m <- method_of (self_model self) "get_inputs_desc" ;;
  desc <- on_graph (get_inputs_desc m) ;;
  cbs <- on_graph (input_setup src desc) ;;
  c <- get_config ;;
  op <- on_graph (AsyncMultiGPUBuilder_build (tower c) scale_gradient src m) ;;
  let self := with_train_op op self in
  callbacks_extend cbs ;;;
  ret self.

(** [self._setup()], dispatched on the class of [self]. *)
Definition _setup (self : Trainer) : M Trainer :=
  match cls self with
  | ParameterServerCls ps => SyncMultiGPUTrainerParameterServer_setup ps self
  | ReplicatedCls => SyncMultiGPUTrainerReplicated_setup self
  | AsyncCls sg => AsyncMultiGPUTrainer_setup sg self
  end.

(** [ps_device in ['gpu', 'cpu']] *)
Definition ps_device_ok (ps : string) : bool :=
  existsb (String.eqb ps) ["gpu"; "cpu"].

(** A call of one of the three constructors, with its keyword arguments. *)
Inductive TrainerCall : Type :=
| NewParameterServer (ps_device : option string) (gpu_prefetch : option bool)
| NewReplicated (gpu_prefetch : option bool)
| NewAsync (scale_gradient : option bool).

Definition construct (call : TrainerCall) : M Trainer :=
  match call with
  | NewParameterServer ps gp => SyncMultiGPUTrainerParameterServer ps gp
  | NewReplicated gp => SyncMultiGPUTrainerReplicated gp
  | NewAsync sg => AsyncMultiGPUTrainer sg
  end.

(** The [gpu_prefetch] that reaches [apply_prefetch_policy] from a call. *)
Definition gpu_prefetch_of (call : TrainerCall) : bool :=
  match call with
  | NewParameterServer _ gp => kwarg true gp
  | NewReplicated gp => kwarg true gp
  | NewAsync _ => true
  end.

Definition gret {A} (a : A) : GM A := fun g => (Return a, g).

Definition graise {A} (e : Exn) : GM A := fun g => (Raise e, g).

Definition gbind {A B} (m : GM A) (k : A -> GM B) : GM B :=
  fun g =>
    match m g with
    | (Return a, g') => k a g'
    | (Raise e, g') => (Raise e, g')
    end.

(** The class of the object a constructor call makes, with the keyword
    arguments it stores. *)
Definition class_of (call : TrainerCall) : TrainerClass :=
  match call with
  | NewParameterServer ps _ => ParameterServerCls (kwarg "gpu" ps)
  | NewReplicated _ => ReplicatedCls
  | NewAsync sg => AsyncCls (kwarg true sg)
  end.

(** [self._input_source.setup(self.model.get_inputs_desc())], on the
    graph. *)
Definition input_phase (m : Model) (src : InputSource) : GM (list Callback) :=
  fun g =>
    match get_inputs_desc m g with
    | (Return desc, g1) => input_setup src desc g1
    | (Raise e, g1) => (Raise e, g1)
    end.

(** The hook the replicated trainer makes of the second operation its
    builder returns. *)
Definition post_init_hook (post_init_op : Op) : RunOp :=
  mkRunOp (fun _ => post_init_op) true true true.

(** What the builder of a trainer class hands back, seen uniformly: the
    apply operation, and the hooks the trainer adds on the builder's
    behalf. *)
Definition build_plan (k : TrainerClass) (towers : list Z)
    (src : InputSource) (m : Model) : GM (Op * list Callback) :=
  match k with
  | ParameterServerCls ps =>
      gbind (SyncMultiGPUParameterServerBuilder_build towers ps src m)
        (fun op => gret (op, []))
  | ReplicatedCls =>
      gbind (SyncMultiGPUReplicatedBuilder_build towers src m)
        (fun ops => gret (fst ops, [RunOpCallback (post_init_hook (snd ops))]))
  | AsyncCls sg =>
      gbind (AsyncMultiGPUBuilder_build towers sg src m)
        (fun op => gret (op, []))
  end.

(** ** MultiGPUTrainerBase.build_on_multi_tower *)

(** What a tower function finds around it when it is invoked. *)
Record TowerContext : Type := mkTowerContext {
  tower_index : nat;
  tower_device : string;
  reuse_state : bool
}.

Section BuildOnTowers.

Variable R : Type.
Variable func : TowerContext -> GM R.

Fixpoint build_each (idx : nat) (towers : list Z)
    (devices : option (list string)) (independent : bool) : GM (list R) :=
  match towers with
  | [] => gret []
  | t :: rest =>
      let device :=
        match devices with
        | Some ds => nth idx ds (default_device t)
        | None => default_device t
        end in
      let ctx := mkTowerContext idx device ((0 <? idx)%nat && negb independent) in
      gbind (func ctx) (fun r =>
      gbind (build_each (S idx) rest devices independent) (fun rs =>
      gret (r :: rs)))
  end.

(** Modelled from the spec: [DataParallelBuilder.build_on_towers]
    (graph_builder/training.py) is not among the sources.  Section 4.1:
    given the towers, a computation function, an optional explicit device
    list and the reuse policy [use_vs], fail with a configuration error
    before any graph construction if an explicit device list does not have
    one device per tower; otherwise invoke the function once per tower, in
    order, bound to that tower's device, tower 0 creating the learnable
    state and later towers reusing it unless the policy asks for
    independent copies, and collect the results. *)
Definition build_on_towers (towers : list Z)
    (devices : option (list string)) (use_vs : option bool) : GM (list R) :=
  let independent := kwarg false use_vs in
  match devices with
  | Some ds =>
      if (List.length ds =? List.length towers)%nat
      then build_each 0 towers devices independent
      else graise (AssertionError None)
  | None => build_each 0 towers devices independent
  end.

Definition build_on_multi_tower (towers : list Z)
    (devices : option (list string)) (use_vs : option bool) : GM (list R) :=
  build_on_towers towers devices use_vs.

End BuildOnTowers.

(** ** The lifecycle system, as far as the hook of the replicated trainer
    is concerned *)

Inductive LifecyclePoint : Type :=
| BeforeTrain    (* once, before the first step *)
| Step           (* one training step *)
| Trigger.       (* the periodic trigger of the callbacks *)

(** Modelled from the spec: the class [RunOp] (callbacks/graph.py) is not
    among the sources.  Section 6 describes a hook as an object with a
    run-phase tag and a verbosity flag; the phases of a [RunOp] are the
    keyword arguments the trainer passes to it, each switching on the
    phase it names: [run_before] runs the operation before training,
    [run_as_trigger] runs it at every trigger. *)
Definition RunOp_runs_at (cb : RunOp) (p : LifecyclePoint) : bool :=
  match p with
  | BeforeTrain => run_before cb
  | Step => false
  | Trigger => run_as_trigger cb
  end.

Definition run_count (cb : RunOp) (run : list LifecyclePoint) : nat :=
  List.length (filter (RunOp_runs_at cb) run).

(** How many training steps were executed before the hook first ran;
    [None] if it never runs. *)
Fixpoint steps_before_first_run (cb : RunOp) (run : list LifecyclePoint)
  : option nat :=
  match run with
  | [] => None
  | p :: rest =>
      if RunOp_runs_at cb p then Some 0%nat
      else
        match steps_before_first_run cb rest with
        | Some n => Some (match p with Step => S n | _ => n end)
        | None => None
        end
  end.

Definition triggers (run : list LifecyclePoint) : nat :=
  List.length
    (filter (fun p => match p with Trigger => true | _ => false end) run).

(** A training run: [BeforeTrain] once, at the start, then steps and
    triggers. *)
Definition training_run (run : list LifecyclePoint) : Prop :=
  exists rest, run = BeforeTrain :: rest /\ ~ In BeforeTrain rest.

End Embedding.

Arguments build_on_multi_tower {U C R} func towers devices use_vs.
Arguments build_on_towers {U C R} func towers devices use_vs.

(** ** A small concrete instance, for examples that run *)

Definition example_universe : Universe :=
  {| DataFlow := string; Model := string; InputDesc := list string;
     Op := string; Hook := string; Graph := list string |}.

Definition example_collaborators : @Collaborators example_universe :=
  {| get_inputs_desc := fun (m : @Model example_universe) g =>
       (Return [m ++ "/input"], g);
     input_setup := fun _ _ g =>
       (Return [@OtherCallback example_universe "enqueue_thread"],
        app g ["input_setup"]);
     SyncMultiGPUParameterServerBuilder_build := fun towers ps _ _ g =>
       (Return ("apply@" ++ ps),
        app g (map (fun t => "tower" ++ str t) towers));
     SyncMultiGPUReplicatedBuilder_build := fun towers _ _ g =>
       (Return ("apply_replicated", "post_init_sync"),
        app g (map (fun t => "tower" ++ str t) towers));
     AsyncMultiGPUBuilder_build := fun towers _ _ _ g =>
       (Return "apply_async",
        app g (map (fun t => "tower" ++ str t) towers));
     default_device := fun t => "/gpu:" ++ str t |}.

Definition example_config (d : option (@InputSource example_universe))
    (df : option string) (m : option string) (towers : list Z)
  : @TrainConfig example_universe :=
  mkTrainConfig d df m towers [@OtherCallback example_universe "saver"].

(** A tower function that leaves one entry in the graph per replica it
    builds and returns the name of its cost. *)
Definition example_tower_func (ctx : @TowerContext)
  : @GM example_universe string :=
  fun g => (Return ("cost@" ++ tower_device ctx),
            app g ["replica on " ++ tower_device ctx]).

Definition example_world (c : @TrainConfig example_universe) (gpu : bool)
  : @World example_universe :=
  mkWorld c ([] : @Graph example_universe) gpu.


Definition staged_imagenet : @InputSource example_universe :=
  StagingInputWrapper (Some (QueueInput ("imagenet" : @DataFlow example_universe)))
    ["/gpu:0"; "/gpu:1"].

(** Two GPUs, a dataflow and a model: what a caller typically passes. *)
Definition world_two_gpus : @World example_universe :=
  example_world
    (example_config None (Some "imagenet") (Some "resnet") [0; 1]%Z) true.

(** The same after a constructor has run the prefetch policy. *)
Definition world_constructed : @World example_universe :=
  example_world
    (example_config (Some staged_imagenet) None (Some "resnet") [0; 1]%Z) true.

Definition world_no_model : @World example_universe :=
  example_world (example_config None (Some "imagenet") None [0; 1]%Z) true.

(** A config that carries both an input source and a dataflow. *)
Definition world_both_sources : @World example_universe :=
  example_world
    (example_config (Some (OtherInput "feed")) (Some "imagenet")
       (Some "resnet") [0]%Z) true.

Definition world_feed_two_gpus : @World example_universe :=
  example_world
    (example_config (Some (OtherInput "feed")) None (Some "resnet") [0; 1]%Z)
    true.

Definition new_trainer (k : TrainerClass) : @Trainer example_universe :=
  mkTrainer k (Some staged_imagenet)
    (Some ("resnet" : @Model example_universe)) None.

Definition ready_trainer (k : TrainerClass)
    (op : @Op example_universe) : @Trainer example_universe :=
  mkTrainer k (Some staged_imagenet)
    (Some ("resnet" : @Model example_universe)) (Some op).

(** [world_constructed] after a [_setup] that added [extra] behind the
    hooks of the input source. *)
Definition world_set_up (extra : list (@Callback example_universe))
  : @World example_universe :=
  mkWorld
    (mkTrainConfig (Some staged_imagenet) None
       (Some ("resnet" : @Model example_universe)) [0; 1]%Z
       ([@OtherCallback example_universe "saver";
         @OtherCallback example_universe "enqueue_thread"] ++ extra)%list)
    (["input_setup"; "tower0"; "tower1"] : @Graph example_universe) true.

Definition example_run : list LifecyclePoint :=
  [BeforeTrain; Step; Trigger; Step; Trigger].

(** The same collaborators, except that the parameter-server builder
    raises after it has put the first tower in the graph. *)
Definition collaborators_failing_build : @Collaborators example_universe :=
  {| get_inputs_desc := @get_inputs_desc _ example_collaborators;
     input_setup := @input_setup _ example_collaborators;
     SyncMultiGPUParameterServerBuilder_build := fun _ _ _ _ g =>
       (Raise (Raised "shape mismatch"), app g ["tower0"]);
     SyncMultiGPUReplicatedBuilder_build :=
       @SyncMultiGPUReplicatedBuilder_build _ example_collaborators;
     AsyncMultiGPUBuilder_build :=
       @AsyncMultiGPUBuilder_build _ example_collaborators;
     default_device := @default_device _ example_collaborators |}.

(** * Properties *)

Section Properties.

Context {U : Universe} {C : Collaborators}.

Ltac run_monad :=
  unfold bind, ret, raise, get_config, modify_config, is_gpu_available,
    assert_, on_graph, callbacks_extend, Trainer__init__ in *.

(** ** apply_prefetch_policy *)

(** The function, read as a decision table. *)
Lemma apply_prefetch_policy_table (gp : option bool) (w : World) :
  apply_prefetch_policy gp w =
    if required_fields_ok (config w) then
      let c1 := normalize (config w) in
      if (1 <? List.length (tower c1))%nat && kwarg true gp then
        if gpu_available w
        then (Return tt, with_config (staged c1) w)
        else (Raise (AssertionError None), with_config c1 w)
      else (Return tt, with_config c1 w)
    else (Raise (AssertionError None), w).
Proof.
  destruct w as [[d df m t cbs] g avail].
  unfold apply_prefetch_policy, required_fields_ok, normalize, staged,
    gpu_devices.
  run_monad; simpl.
  destruct d as [d|], df as [df|], m as [m|]; simpl; try reflexivity;
    destruct ((1 <? List.length t)%nat); simpl; try reflexivity;
    destruct (kwarg true gp); simpl; try reflexivity;
    destruct avail; simpl; try reflexivity;
    destruct d; reflexivity.
Qed.

Lemma normalize_idem (c : TrainConfig) : normalize (normalize c) = normalize c.
Proof.
  destruct c as [[d|] [df|] m t cbs]; reflexivity.
Qed.

Lemma normalize_tower (c : TrainConfig) : tower (normalize c) = tower c.
Proof.
  destruct c as [[d|] [df|] m t cbs]; reflexivity.
Qed.

Lemma normalize_required (c : TrainConfig) :
  required_fields_ok c = true -> required_fields_ok (normalize c) = true.
Proof.
  destruct c as [[d|] [df|] [m|] t cbs]; simpl; auto.
Qed.

Lemma normalize_data_some (c : TrainConfig) :
  required_fields_ok c = true -> is_some (data (normalize c)) = true.
Proof.
  destruct c as [[d|] [df|] [m|] t cbs]; simpl; auto.
Qed.

Lemma staged_fixes_normalize (c : TrainConfig) :
  is_some (data c) = true -> normalize (staged c) = staged c.
Proof.
  destruct c as [[d|] df m t cbs]; simpl; try discriminate.
  intros _. unfold staged; simpl.
  destruct d; reflexivity.
Qed.

Lemma staged_idem (c : TrainConfig) : staged (staged c) = staged c.
Proof.
  destruct c as [[d|] df m t cbs]; unfold staged; simpl; try reflexivity.
  destruct d; reflexivity.
Qed.

Lemma staged_required (c : TrainConfig) :
  required_fields_ok c = true -> required_fields_ok (staged c) = true.
Proof.
  destruct c as [[d|] df [m|] t cbs]; unfold staged; simpl; auto;
    try (destruct d; simpl; auto).
  destruct df; simpl; auto.
Qed.

Lemma staged_tower (c : TrainConfig) : tower (staged c) = tower c.
Proof.
  unfold staged. destruct (isinstance_staging_or_dummy (data c)); reflexivity.
Qed.

Lemma apply_prefetch_policy_twice (gp : option bool) (w : World) :
  apply_prefetch_policy gp (snd (apply_prefetch_policy gp w))
  = apply_prefetch_policy gp w.
Proof.
  rewrite (apply_prefetch_policy_table gp w).
  destruct (required_fields_ok (config w)) eqn:Hreq; simpl.
  - pose proof (normalize_required _ Hreq) as Hreq1.
    pose proof (normalize_data_some _ Hreq) as Hsome.
    destruct ((1 <? List.length (tower (normalize (config w))))%nat
              && kwarg true gp) eqn:Hmany; simpl.
    + destruct (gpu_available w) eqn:Havail; simpl;
        rewrite apply_prefetch_policy_table; simpl.
      * rewrite (staged_required _ Hreq1).
        rewrite staged_fixes_normalize by exact Hsome.
        rewrite staged_tower, Hmany, Havail, staged_idem.
        destruct w; reflexivity.
      * rewrite Hreq1, normalize_idem, Hmany, Havail.
        destruct w; reflexivity.
    + rewrite apply_prefetch_policy_table; simpl.
      rewrite Hreq1, normalize_idem, Hmany.
      destruct w; reflexivity.
  - rewrite apply_prefetch_policy_table, Hreq. reflexivity.
Qed.

(** The policy writes to the config only, and there to [data] and
    [dataflow] only. *)
Lemma apply_prefetch_policy_frame (gp : option bool) (w : World) :
  let w' := snd (apply_prefetch_policy gp w) in
  graph w' = graph w /\ gpu_available w' = gpu_available w /\
  model (config w') = model (config w) /\
  tower (config w') = tower (config w) /\
  callbacks (config w') = callbacks (config w).
Proof.
  rewrite apply_prefetch_policy_table.
  destruct w as [[d df m t cbs] g avail]; simpl.
  unfold required_fields_ok, normalize, staged; simpl.
  destruct d as [d|], df as [df|], m as [m|]; simpl; auto;
    destruct ((1 <? List.length t)%nat); simpl; auto;
    destruct (kwarg true gp); simpl; auto;
    destruct avail; simpl; auto;
    destruct d; simpl; auto.
Qed.

(** The only exception the policy raises is a bare assertion error. *)
Lemma apply_prefetch_policy_raises (gp : option bool) (w : World) (e : Exn) :
  fst (apply_prefetch_policy gp w) = Raise e -> e = AssertionError None.
Proof.
  rewrite apply_prefetch_policy_table.
  destruct (required_fields_ok (config w)); simpl.
  - destruct ((1 <? List.length (tower (normalize (config w))))%nat
              && kwarg true gp); simpl.
    + destruct (gpu_available w); simpl; congruence.
    + congruence.
  - congruence.
Qed.

(** ** The constructors *)

(** Every constructor is the policy followed by steps that read the
    config without writing to it. *)
Lemma construct_table (call : TrainerCall) (w : World) :
  construct call w =
    match apply_prefetch_policy (Some (gpu_prefetch_of call)) w with
    | (Raise e, w1) => (Raise e, w1)
    | (Return _, w1) =>
        let new k := (Return (mkTrainer k (data (config w1))
                                (model (config w1)) None), w1) in
        match call with
        | NewParameterServer ps _ =>
            if ps_device_ok (kwarg "gpu" ps)
            then new (ParameterServerCls (kwarg "gpu" ps))
            else (Raise (AssertionError (Some (kwarg "gpu" ps))), w1)
        | NewReplicated _ => new ReplicatedCls
        | NewAsync sg => new (AsyncCls (kwarg true sg))
        end
    end.
Proof.
  destruct call as [ps gp | gp | sg]; simpl;
    unfold SyncMultiGPUTrainerParameterServer, SyncMultiGPUTrainerReplicated,
      AsyncMultiGPUTrainer, ps_device_ok.
  - unfold bind at 1.
    destruct (apply_prefetch_policy (Some (kwarg true gp)) w) as [[e|[]] w1];
      try reflexivity.
    run_monad.
    destruct (existsb (String.eqb (kwarg "gpu" ps)) ["gpu"; "cpu"]);
      reflexivity.
  - unfold bind at 1.
    destruct (apply_prefetch_policy (Some (kwarg true gp)) w) as [[e|[]] w1];
      reflexivity.
  - unfold bind at 1.
    change (apply_prefetch_policy None) with (apply_prefetch_policy (Some true)).
    destruct (apply_prefetch_policy (Some true) w) as [[e|[]] w1];
      reflexivity.
Qed.

Lemma construct_world (call : TrainerCall) (w : World) :
  snd (construct call w)
  = snd (apply_prefetch_policy (Some (gpu_prefetch_of call)) w).
Proof.
  rewrite construct_table.
  destruct (apply_prefetch_policy (Some (gpu_prefetch_of call)) w)
    as [[e|[]] w1]; simpl; try reflexivity.
  destruct call as [ps gp | gp | sg]; simpl; try reflexivity.
  destruct (ps_device_ok (kwarg "gpu" ps)); reflexivity.
Qed.

Lemma ps_device_ok_false (ps : string) :
  ps <> "gpu" -> ps <> "cpu" -> ps_device_ok ps = false.
Proof.
  intros Hg Hc. unfold ps_device_ok; simpl.
  apply String.eqb_neq in Hg. apply String.eqb_neq in Hc.
  rewrite Hg, Hc. reflexivity.
Qed.

(** C10: applying [apply_prefetch_policy] a second time, with the same
    [gpu_prefetch], leaves [config.data] and [config.dataflow] as the
    first call left them: the dataflow is not wrapped in a second
    [QueueInput] and a staged source is not staged again.  The whole
    world is unchanged, and the second call ends as the first one did. *)
Theorem apply_prefetch_policy_idempotent (gp : option bool) (w : World) :
  let w1 := snd (apply_prefetch_policy gp w) in
  let w2 := snd (apply_prefetch_policy gp w1) in
  data (config w2) = data (config w1) /\
  dataflow (config w2) = dataflow (config w1) /\
  w2 = w1 /\
  fst (apply_prefetch_policy gp w1) = fst (apply_prefetch_policy gp w).
Proof.
  cbv zeta. rewrite apply_prefetch_policy_twice. auto.
Qed.

(** C5: a constructor called on a config without a model, or with
    neither [data] nor [dataflow], raises an assertion error at once;
    nothing has been written to the config or to the graph, and no
    trainer exists on which a step could run. *)
Theorem construct_rejects_missing_fields (call : TrainerCall) (w : World) :
  model (config w) = None \/
  (data (config w) = None /\ dataflow (config w) = None) ->
  construct call w = (Raise (AssertionError None), w).
Proof.
  intros H.
  assert (Hreq : required_fields_ok (config w) = false).
  { unfold required_fields_ok.
    destruct H as [Hm | [Hd Hdf]].
    - rewrite Hm. simpl. apply andb_false_r.
    - rewrite Hd, Hdf. reflexivity. }
  rewrite construct_table, apply_prefetch_policy_table, Hreq.
  reflexivity.
Qed.

(** C1: the parameter-server constructor called with a [ps_device] that
    is neither 'gpu' nor 'cpu' raises an assertion error.  The graph is
    the one the call found: no tower has been built.  When the prefetch
    policy itself went through, the error is the one of the [ps_device]
    check and carries the rejected value. *)
Theorem parameter_server_rejects_ps_device
    (ps : string) (gp : option bool) (w : World) :
  ps <> "gpu" -> ps <> "cpu" ->
  let out := SyncMultiGPUTrainerParameterServer (Some ps) gp w in
  is_assertion_error (fst out) = true /\
  graph (snd out) = graph w /\
  callbacks (config (snd out)) = callbacks (config w) /\
  (is_return (fst (apply_prefetch_policy (Some (kwarg true gp)) w)) = true ->
   fst out = Raise (AssertionError (Some ps))).
Proof.
  intros Hg Hc. cbv zeta.
  change (SyncMultiGPUTrainerParameterServer (Some ps) gp)
    with (construct (NewParameterServer (Some ps) gp)).
  pose proof (apply_prefetch_policy_frame (Some (kwarg true gp)) w) as Hfr.
  cbv zeta in Hfr. destruct Hfr as (Hgr & _ & _ & _ & Hcb).
  rewrite construct_world. simpl gpu_prefetch_of.
  repeat split; try assumption.
  - rewrite construct_table. simpl gpu_prefetch_of.
    destruct (apply_prefetch_policy (Some (kwarg true gp)) w)
      as [[e|[]] w1] eqn:E; simpl.
    + pose proof (apply_prefetch_policy_raises (Some (kwarg true gp)) w) as He.
      rewrite E in He. rewrite (He e eq_refl). reflexivity.
    + rewrite (ps_device_ok_false Hg Hc). reflexivity.
  - rewrite construct_table. simpl gpu_prefetch_of.
    destruct (apply_prefetch_policy (Some (kwarg true gp)) w) as [[e|[]] w1];
      simpl; try discriminate.
    intros _. rewrite (ps_device_ok_false Hg Hc). reflexivity.
Qed.

(** C4, as the code has it: on a config that passes the required-field
    check and does not carry both a [data] and a [dataflow], the policy,
    and hence the construction of any of the three trainers, leaves
    [config.data] set and [config.dataflow] unset, whether or not the
    call goes on to fail. *)
Theorem normalization_leaves_one_source
    (gp : option bool) (call : TrainerCall) (w : World) :
  required_fields_ok (config w) = true ->
  is_some (data (config w)) && is_some (dataflow (config w)) = false ->
  let after_policy := config (snd (apply_prefetch_policy gp w)) in
  let after_construct := config (snd (construct call w)) in
  (is_some (data after_policy) = true /\ dataflow after_policy = None /\
   exactly_one_source after_policy) /\
  (is_some (data after_construct) = true /\ dataflow after_construct = None /\
   exactly_one_source after_construct).
Proof.
  intros Hreq Hboth. cbv zeta.
  rewrite construct_world.
  assert (Hpol : forall b,
    let c' := config (snd (apply_prefetch_policy b w)) in
    is_some (data c') = true /\ dataflow c' = None).
  { intros b. rewrite apply_prefetch_policy_table, Hreq.
    destruct w as [[d df m t cbs] g avail]; simpl in *.
    unfold normalize, staged; simpl.
    destruct d as [d|], df as [df|]; simpl in *; try discriminate;
      destruct ((1 <? List.length t)%nat && kwarg true b); simpl; auto;
      destruct avail; simpl; auto;
      destruct d; simpl; auto. }
  assert (Hone : forall c, is_some (data c) = true /\ dataflow c = None ->
                           exactly_one_source c).
  { intros c [Hd Hdf]. unfold exactly_one_source. rewrite Hd, Hdf. reflexivity. }
  split.
  - pose proof (Hpol gp) as H. cbv zeta in H.
    destruct H as [Hd Hdf]. auto.
  - pose proof (Hpol (Some (gpu_prefetch_of call))) as H. cbv zeta in H.
    destruct H as [Hd Hdf]. auto.
Qed.

(** C3, as the code has it: the parameter-server and the replicated
    constructor take [gpu_prefetch]; the async constructor does not and
    always applies the policy with [gpu_prefetch=True].  On a config
    that passes the required-field check: with more than one tower and
    [gpu_prefetch] on, the constructor fails an assertion when no GPU is
    available, and otherwise wraps the input source in a
    [StagingInputWrapper] over the devices of the towers, unless the
    source is one already or is a [DummyConstantInput]; with at most one
    tower, or [gpu_prefetch] off, [config.data] is the input source
    unwrapped. *)
Theorem gpu_prefetch_decides_staging (call : TrainerCall) (w : World) :
  required_fields_ok (config w) = true ->
  let out := construct call w in
  let source := data (normalize (config w)) in
  if (1 <? List.length (tower (config w)))%nat && gpu_prefetch_of call then
    if gpu_available w then
      data (config (snd out)) =
        if isinstance_staging_or_dummy source then source
        else Some (StagingInputWrapper source (gpu_devices (config w)))
    else fst out = Raise (AssertionError None)
  else data (config (snd out)) = source.
Proof.
  intros Hreq. cbv zeta.
  rewrite construct_world, construct_table, apply_prefetch_policy_table, Hreq.
  cbv zeta. rewrite normalize_tower.
  change (kwarg true (Some (gpu_prefetch_of call))) with (gpu_prefetch_of call).
  destruct ((1 <? List.length (tower (config w)))%nat && gpu_prefetch_of call);
    simpl; [ destruct (gpu_available w); simpl | ]; try reflexivity.
  unfold staged, gpu_devices. rewrite normalize_tower.
  destruct (isinstance_staging_or_dummy (data (normalize (config w))));
    reflexivity.
Qed.

(** ** Further properties of the policy and of the constructors *)

Lemma str_injective (k k' : Z) : str k = str k' -> k = k'.
Proof.
  unfold str. intros H. apply DecimalZ.to_int_inj.
  assert (Hparse : forall z,
    NilZero.int_of_string (NilZero.string_of_int (Z.to_int z))
      = Some (Z.to_int z)).
  { intros z. apply NilZero.isi; destruct z; simpl; try discriminate;
      intros E; inversion E as [E'];
      exact (DecimalPos.Unsigned.to_uint_nonnil _ E'). }
  pose proof (Hparse k) as Hk. rewrite H, Hparse in Hk.
  congruence.
Qed.

Lemma gpu_device_injective (k k' : Z) :
  "/gpu:" ++ str k = "/gpu:" ++ str k' -> k = k'.
Proof.
  simpl. intros H. inversion H. apply str_injective. assumption.
Qed.

Lemma gpu_devices_NoDup (c : TrainConfig) :
  NoDup (tower c) -> NoDup (gpu_devices c).
Proof.
  unfold gpu_devices. induction (tower c) as [|k ks IH]; intros Hnd; simpl.
  - constructor.
  - inversion Hnd as [|? ? Hnotin Hrest]; subst. constructor.
    + intros Hin. apply in_map_iff in Hin. destruct Hin as (k' & Heq & Hin').
      apply gpu_device_injective in Heq. subst k'. exact (Hnotin Hin').
    + apply IH, Hrest.
Qed.


(** X2: which source the policy keeps.  A [data] that is given is kept
    (bare, or inside a staging wrapper) and never put behind a queue,
    and a [dataflow] given beside it is left where it is; a dataflow
    given alone, with a model, always ends up inside a [QueueInput]
    (bare or staged) and [config.dataflow] is cleared; otherwise the
    config is untouched. *)
Theorem policy_source_precedence (gp : option bool) (w : World) :
  let c := config w in
  let c' := config (snd (apply_prefetch_policy gp w)) in
  match data c, dataflow c with
  | Some d, _ =>
      dataflow c' = dataflow c /\
      (data c' = Some d \/
       exists devices, data c' = Some (StagingInputWrapper (Some d) devices))
  | None, Some df =>
      if is_some (model c) then
        dataflow c' = None /\
        (data c' = Some (QueueInput df) \/
         exists devices,
           data c' = Some (StagingInputWrapper (Some (QueueInput df)) devices))
      else c' = c
  | None, None => c' = c
  end.
Proof.
  cbv zeta. rewrite apply_prefetch_policy_table.
  destruct w as [[d df m t cbs] g avail]; simpl.
  unfold required_fields_ok, normalize, staged; simpl.
  destruct d as [d|], df as [df|], m as [m|]; simpl; auto;
    destruct ((1 <? List.length t)%nat && kwarg true gp); simpl; auto;
    destruct avail; simpl; auto;
    try (destruct d; simpl; split; eauto).
  split; eauto.
Qed.

(** X3: two applications of the policy, with whatever [gpu_prefetch]
    each, leave the config as one application with the disjunction of
    the two flags would: once staging has been asked for it stays, and
    normalizing twice is normalizing once. *)
Theorem apply_prefetch_policy_absorbs (gp1 gp2 : option bool) (w : World) :
  snd (apply_prefetch_policy gp2 (snd (apply_prefetch_policy gp1 w)))
  = snd (apply_prefetch_policy
           (Some (kwarg true gp1 || kwarg true gp2)) w).
Proof.
  rewrite (apply_prefetch_policy_table gp1 w).
  rewrite (apply_prefetch_policy_table (Some _) w).
  change (kwarg true (Some (kwarg true gp1 || kwarg true gp2)))
    with (kwarg true gp1 || kwarg true gp2).
  destruct (required_fields_ok (config w)) eqn:Hreq; cbv zeta.
  - pose proof (normalize_required _ Hreq) as Hreq1.
    pose proof (normalize_data_some _ Hreq) as Hsome.
    destruct ((1 <? List.length (tower (normalize (config w))))%nat) eqn:Hmany;
      destruct (kwarg true gp1) eqn:Hb1; simpl.
    + destruct (gpu_available w) eqn:Havail; simpl;
        rewrite apply_prefetch_policy_table; simpl.
      * rewrite (staged_required _ Hreq1).
        rewrite staged_fixes_normalize by exact Hsome.
        rewrite staged_tower, Hmany, Havail, staged_idem.
        destruct (kwarg true gp2); destruct w; reflexivity.
      * rewrite Hreq1, normalize_idem, Hmany, Havail.
        destruct (kwarg true gp2); destruct w; reflexivity.
    + rewrite apply_prefetch_policy_table; simpl.
      rewrite Hreq1, normalize_idem, Hmany.
      destruct (kwarg true gp2); simpl; destruct (gpu_available w);
        destruct w; reflexivity.
    + rewrite apply_prefetch_policy_table; simpl.
      rewrite Hreq1, normalize_idem, Hmany. simpl.
      destruct w; reflexivity.
    + rewrite apply_prefetch_policy_table; simpl.
      rewrite Hreq1, normalize_idem, Hmany. simpl.
      destruct w; reflexivity.
  - simpl. rewrite apply_prefetch_policy_table, Hreq. reflexivity.
Qed.


(** What is known of the trainer and of the config once a constructor
    has returned. *)
Lemma construct_returns_inv
    (call : TrainerCall) (w w1 : World) (self : Trainer) :
  construct call w = (Return self, w1) ->
  cls self = class_of call /\
  _input_source self = data (config w1) /\
  self_model self = model (config w1) /\
  train_op self = None /\
  is_some (_input_source self) = true /\
  is_some (self_model self) = true.
Proof.
  rewrite construct_table.
  pose proof (apply_prefetch_policy_table (Some (gpu_prefetch_of call)) w) as Ht.
  destruct (apply_prefetch_policy (Some (gpu_prefetch_of call)) w)
    as [[e|[]] w0] eqn:E; [ discriminate | ].
  assert (Hok : is_some (data (config w0)) = true /\
                is_some (model (config w0)) = true).
  { destruct (required_fields_ok (config w)) eqn:Hreq; [ | discriminate ].
    pose proof (normalize_data_some _ Hreq) as Hsome.
    assert (Hm : is_some (model (normalize (config w))) = true).
    { revert Hreq. unfold required_fields_ok, normalize.
      destruct (config w) as [[d|] [df|] [m|] t cbs]; simpl;
        try reflexivity; intros H; try discriminate H;
        rewrite ?andb_false_r in H; discriminate H. }
    cbv zeta in Ht.
    destruct ((1 <? List.length (tower (normalize (config w))))%nat
              && kwarg true (Some (gpu_prefetch_of call)));
      [ destruct (gpu_available w); [ | discriminate ] | ];
      inversion Ht; subst; simpl; auto.
    unfold staged.
    destruct (isinstance_staging_or_dummy (data (normalize (config w))));
      simpl; auto. }
  destruct Hok as [Hd Hm].
  destruct call as [ps gp | gp | sg]; cbv zeta; simpl.
  - destruct (ps_device_ok (kwarg "gpu" ps)); [ | discriminate ].
    intros H; inversion H; subst; simpl. auto 10.
  - intros H; inversion H; subst; simpl. auto 10.
  - intros H; inversion H; subst; simpl. auto 10.
Qed.


(** X6: the devices of a staging wrapper the policy inserts are the
    towers' GPUs, one per tower and in the order of [config.tower]:
    the device at position [i] is '/gpu:k' for the [i]-th tower [k], and
    towers that are pairwise distinct get pairwise distinct devices. *)
Theorem staging_devices_follow_towers (gp : option bool) (w : World) :
  required_fields_ok (config w) = true ->
  (1 <? List.length (tower (config w)))%nat && kwarg true gp = true ->
  gpu_available w = true ->
  isinstance_staging_or_dummy (data (config w)) = false ->
  exists src devices,
    data (config (snd (apply_prefetch_policy gp w)))
      = Some (StagingInputWrapper (Some src) devices) /\
    List.length devices = List.length (tower (config w)) /\
    (forall i k, nth_error (tower (config w)) i = Some k ->
                 nth_error devices i = Some ("/gpu:" ++ str k)) /\
    (NoDup (tower (config w)) -> NoDup devices).
Proof.
  intros Hreq Hmany Havail Hinst.
  rewrite apply_prefetch_policy_table, Hreq. cbv zeta.
  rewrite normalize_tower, Hmany, Havail. simpl.
  pose proof (normalize_data_some _ Hreq) as Hsome.
  assert (Hinst' : isinstance_staging_or_dummy (data (normalize (config w))) = false).
  { revert Hinst. unfold normalize.
    destruct (config w) as [[d|] [df|] m t cbs]; simpl; auto. }
  unfold staged. rewrite Hinst'. simpl.
  destruct (data (normalize (config w))) as [src|] eqn:Esrc; [ | discriminate ].
  exists src, (gpu_devices (normalize (config w))).
  split; [ reflexivity | ].
  unfold gpu_devices at 1 2. rewrite normalize_tower.
  split; [ apply length_map | split ].
  - intros i k Hk. apply (map_nth_error (fun k => "/gpu:" ++ str k) _ _ Hk).
  - intros Hnd. apply gpu_devices_NoDup. rewrite normalize_tower. exact Hnd.
Qed.

(** ** _setup *)

(** [_setup] of any class, read as one sequence: the two attribute
    lookups, the model's input description, the input source's setup,
    the builder, and only then the writes to [self] and to the callback
    list. *)
Lemma _setup_table (self : Trainer) (w : World) :
  _setup self w =
    match _input_source self, self_model self with
    | None, _ => (Raise (AttributeError "setup"), w)
    | Some _, None => (Raise (AttributeError "get_inputs_desc"), w)
    | Some src, Some m =>
        match get_inputs_desc m (graph w) with
        | (Raise e, g1) => (Raise e, with_graph g1 w)
        | (Return desc, g1) =>
            match input_setup src desc g1 with
            | (Raise e, g2) => (Raise e, with_graph g2 w)
            | (Return cbs, g2) =>
                match build_plan (cls self) (tower (config w)) src m g2 with
                | (Raise e, g3) => (Raise e, with_graph g3 w)
                | (Return (op, extra), g3) =>
                    (Return (with_train_op op self),
                     with_config
                       (with_callbacks (callbacks (config w) ++ cbs ++ extra)
                                       (config w))
                       (with_graph g3 w))
                end
            end
        end
    end.
Proof.
  unfold _setup, SyncMultiGPUTrainerParameterServer_setup,
    SyncMultiGPUTrainerReplicated_setup, AsyncMultiGPUTrainer_setup,
    method_of, build_plan, gbind, gret.
  destruct (_input_source self) as [src|], (self_model self) as [m|];
    try (destruct (cls self); run_monad; reflexivity).
  destruct (cls self) as [ps | | sg]; run_monad; simpl;
    destruct (get_inputs_desc m (graph w)) as [[e|desc] g1]; simpl;
    try reflexivity;
    destruct (input_setup src desc g1) as [[e|cbs] g2]; simpl;
    try reflexivity.
  - destruct (SyncMultiGPUParameterServerBuilder_build
                (tower (config w)) ps src m g2) as [[e|op] g3]; simpl;
      try reflexivity.
    rewrite app_nil_r. reflexivity.
  - destruct (SyncMultiGPUReplicatedBuilder_build
                (tower (config w)) src m g2) as [[e|[op post]] g3]; simpl;
      reflexivity.
  - destruct (AsyncMultiGPUBuilder_build
                (tower (config w)) sg src m g2) as [[e|op] g3]; simpl;
      try reflexivity.
    rewrite app_nil_r. reflexivity.
Qed.

(** Whatever a successful [_setup] did, it went through the input
    source's setup and the builder of its class. *)
Lemma _setup_returns (self self' : Trainer) (w w' : World) :
  _setup self w = (Return self', w') ->
  exists src m desc g1 cbs g2 op extra,
    _input_source self = Some src /\ self_model self = Some m /\
    get_inputs_desc m (graph w) = (Return desc, g1) /\
    input_setup src desc g1 = (Return cbs, g2) /\
    build_plan (cls self) (tower (config w)) src m g2
      = (Return (op, extra), graph w') /\
    self' = with_train_op op self /\
    config w' = with_callbacks (callbacks (config w) ++ cbs ++ extra) (config w).
Proof.
  rewrite _setup_table.
  destruct (_input_source self) as [src|]; [ | discriminate ].
  destruct (self_model self) as [m|]; [ | discriminate ].
  destruct (get_inputs_desc m (graph w)) as [[e|desc] g1] eqn:Edesc;
    [ discriminate | ].
  destruct (input_setup src desc g1) as [[e|cbs] g2] eqn:Ein;
    [ discriminate | ].
  destruct (build_plan (cls self) (tower (config w)) src m g2)
    as [[e|[op extra]] g3] eqn:Eb; [ discriminate | ].
  intros H. inversion H; subst; clear H.
  exists src, m, desc, g1, cbs, g2, op, extra. simpl. auto 10.
Qed.

Lemma build_plan_returns (k : TrainerClass) (towers : list Z)
    (src : InputSource) (m : Model) (g g' : Graph) (op : Op)
    (extra : list Callback) :
  build_plan k towers src m g = (Return (op, extra), g') ->
  match k with
  | ParameterServerCls ps =>
      SyncMultiGPUParameterServerBuilder_build towers ps src m g
        = (Return op, g') /\ extra = []
  | ReplicatedCls =>
      exists post,
        SyncMultiGPUReplicatedBuilder_build towers src m g
          = (Return (op, post), g') /\
        extra = [RunOpCallback (post_init_hook post)]
  | AsyncCls sg =>
      AsyncMultiGPUBuilder_build towers sg src m g = (Return op, g') /\
      extra = []
  end.
Proof.
  unfold build_plan, gbind, gret. destruct k as [ps | | sg].
  - destruct (SyncMultiGPUParameterServerBuilder_build towers ps src m g)
      as [[e|op'] g1]; intros H; inversion H; subst. auto.
  - destruct (SyncMultiGPUReplicatedBuilder_build towers src m g)
      as [[e|[op' post]] g1]; intros H; inversion H; subst.
    exists post. auto.
  - destruct (AsyncMultiGPUBuilder_build towers sg src m g)
      as [[e|op'] g1]; intros H; inversion H; subst. auto.
Qed.

(** C7: when [_setup] returns, [self.train_op] holds one operation: the
    apply operation that the builder of the trainer's class returned
    when called, after the input source's setup, with the towers of the
    config, the trainer's input source and its model (for the replicated
    trainer, the first of the two operations its builder returns). *)
Theorem setup_stores_apply_op (self self' : Trainer) (w w' : World) :
  _setup self w = (Return self', w') ->
  exists src m g op,
    _input_source self = Some src /\ self_model self = Some m /\
    train_op self' = Some op /\
    match cls self with
    | ParameterServerCls ps =>
        SyncMultiGPUParameterServerBuilder_build (tower (config w)) ps src m g
          = (Return op, graph w')
    | ReplicatedCls =>
        exists post,
          SyncMultiGPUReplicatedBuilder_build (tower (config w)) src m g
            = (Return (op, post), graph w')
    | AsyncCls sg =>
        AsyncMultiGPUBuilder_build (tower (config w)) sg src m g
          = (Return op, graph w')
    end.
Proof.
  intros H.
  destruct (_setup_returns _ _ H)
    as (src & m & desc & g1 & cbs & g2 & op & extra &
        Hsrc & Hm & _ & _ & Hb & Hself & _).
  exists src, m, g2, op. subst self'. simpl.
  do 3 (split; [ assumption || reflexivity | ]).
  apply build_plan_returns in Hb.
  destruct (cls self) as [ps | | sg].
  - exact (proj1 Hb).
  - destruct Hb as (post & Hb & _). exists post. exact Hb.
  - exact (proj1 Hb).
Qed.

(** C8: [_setup] writes to the config only by extending the callback
    list at its end.  When it returns, what it added are the hooks the
    input source's setup returned, followed, for the replicated trainer
    only, by one [RunOp] hook; when it raises, the list is untouched.
    Entries that were in the list stay, in their order. *)
Theorem setup_only_appends_callbacks (self : Trainer) (w : World) :
  let out := _setup self w in
  let c := config w in
  let c' := config (snd out) in
  data c' = data c /\ dataflow c' = dataflow c /\ model c' = model c /\
  tower c' = tower c /\
  match fst out with
  | Raise _ => callbacks c' = callbacks c
  | Return _ =>
      exists src m desc g1 cbs g2,
        _input_source self = Some src /\ self_model self = Some m /\
        get_inputs_desc m (graph w) = (Return desc, g1) /\
        input_setup src desc g1 = (Return cbs, g2) /\
        match cls self with
        | ReplicatedCls =>
            exists cb,
              callbacks c' = (callbacks c ++ cbs ++ [RunOpCallback cb])%list
        | _ => callbacks c' = (callbacks c ++ cbs)%list
        end
  end.
Proof.
  cbv zeta. rewrite _setup_table.
  destruct (_input_source self) as [src|]; [ | simpl; auto ].
  destruct (self_model self) as [m|]; [ | simpl; auto ].
  destruct (get_inputs_desc m (graph w)) as [[e|desc] g1] eqn:Edesc;
    [ simpl; auto | ].
  destruct (input_setup src desc g1) as [[e|cbs] g2] eqn:Ein;
    [ simpl; auto | ].
  destruct (build_plan (cls self) (tower (config w)) src m g2)
    as [[e|[op extra]] g3] eqn:Eb; [ simpl; auto | ].
  simpl. repeat split.
  exists src, m, desc, g1, cbs, g2. repeat split; try assumption.
  unfold build_plan, gbind, gret in Eb.
  destruct (cls self) as [ps | | sg].
  - destruct (SyncMultiGPUParameterServerBuilder_build
                (tower (config w)) ps src m g2) as [[e|op'] g'];
      inversion Eb; subst. rewrite app_nil_r. reflexivity.
  - destruct (SyncMultiGPUReplicatedBuilder_build
                (tower (config w)) src m g2) as [[e|ops] g'];
      inversion Eb; subst. eexists. reflexivity.
  - destruct (AsyncMultiGPUBuilder_build
                (tower (config w)) sg src m g2) as [[e|op'] g'];
      inversion Eb; subst. rewrite app_nil_r. reflexivity.
Qed.

(** ** Further properties of _setup *)

Lemma build_plan_raises (k : TrainerClass) (towers : list Z)
    (src : InputSource) (m : Model) (g g' : Graph) (e : Exn) :
  build_plan k towers src m g = (Raise e, g') ->
  match k with
  | ParameterServerCls ps =>
      SyncMultiGPUParameterServerBuilder_build towers ps src m g = (Raise e, g')
  | ReplicatedCls =>
      SyncMultiGPUReplicatedBuilder_build towers src m g = (Raise e, g')
  | AsyncCls sg =>
      AsyncMultiGPUBuilder_build towers sg src m g = (Raise e, g')
  end.
Proof.
  unfold build_plan, gbind, gret. destruct k as [ps | | sg].
  - destruct (SyncMultiGPUParameterServerBuilder_build towers ps src m g)
      as [[e'|op] g1]; intros H; inversion H; subst. reflexivity.
  - destruct (SyncMultiGPUReplicatedBuilder_build towers src m g)
      as [[e'|ops] g1]; intros H; inversion H; subst. reflexivity.
  - destruct (AsyncMultiGPUBuilder_build towers sg src m g)
      as [[e'|op] g1]; intros H; inversion H; subst. reflexivity.
Qed.

(** X7: [_setup] on a trainer that a constructor returned cannot fail
    on its own account: if the model's [get_inputs_desc], the input
    source's [setup] and the builders never raise, it returns, and the
    trainer then has a [train_op] and the class it was constructed
    with. *)
Theorem setup_after_construct_returns
    (call : TrainerCall) (w w1 : World) (self : Trainer) :
  (forall m g, is_return (fst (get_inputs_desc m g)) = true) ->
  (forall src desc g, is_return (fst (input_setup src desc g)) = true) ->
  (forall t ps src m g,
     is_return (fst (SyncMultiGPUParameterServerBuilder_build t ps src m g))
       = true) ->
  (forall t src m g,
     is_return (fst (SyncMultiGPUReplicatedBuilder_build t src m g)) = true) ->
  (forall t sg src m g,
     is_return (fst (AsyncMultiGPUBuilder_build t sg src m g)) = true) ->
  construct call w = (Return self, w1) ->
  exists self' w2,
    _setup self w1 = (Return self', w2) /\
    is_some (train_op self') = true /\
    cls self' = class_of call.
Proof.
  intros Hdesc Hin Hps Hrep Hasync Hc.
  destruct (construct_returns_inv _ _ Hc)
    as (Hcls & _ & _ & _ & Hsrc & Hm).
  rewrite _setup_table.
  destruct (_input_source self) as [src|]; [ | discriminate ].
  destruct (self_model self) as [m|]; [ | discriminate ].
  specialize (Hdesc m (graph w1)).
  destruct (get_inputs_desc m (graph w1)) as [[e|desc] g1]; [ discriminate | ].
  specialize (Hin src desc g1).
  destruct (input_setup src desc g1) as [[e|cbs] g2]; [ discriminate | ].
  assert (Hb : is_return
                 (fst (build_plan (cls self) (tower (config w1)) src m g2))
               = true).
  { unfold build_plan, gbind, gret. destruct (cls self) as [ps | | sg].
    - specialize (Hps (tower (config w1)) ps src m g2).
      destruct (SyncMultiGPUParameterServerBuilder_build _ _ _ _ _)
        as [[e|op] g3]; [ discriminate | reflexivity ].
    - specialize (Hrep (tower (config w1)) src m g2).
      destruct (SyncMultiGPUReplicatedBuilder_build _ _ _ _)
        as [[e|ops] g3]; [ discriminate | reflexivity ].
    - specialize (Hasync (tower (config w1)) sg src m g2).
      destruct (AsyncMultiGPUBuilder_build _ _ _ _ _)
        as [[e|op] g3]; [ discriminate | reflexivity ]. }
  destruct (build_plan (cls self) (tower (config w1)) src m g2)
    as [[e|[op extra]] g3]; [ discriminate | ].
  eexists. eexists. split; [ reflexivity | ]. simpl. auto.
Qed.

(** X8: what the builder is given.  After a constructor and then
    [_setup] have returned, the builder of the trainer's class has been
    called with the towers of the config, with [config.data] as the
    policy left it (queued, staged) as input source, with the config's
    model, and with the keyword argument of the constructor call: a
    [ps_device] that is 'gpu' or 'cpu' ('gpu' when left out), the
    [scale_gradient] flag ([True] when left out).  Its apply operation
    is the trainer's [train_op]. *)
Theorem builder_receives_constructor_arguments
    (call : TrainerCall) (w w1 w2 : World) (self self' : Trainer) :
  construct call w = (Return self, w1) ->
  _setup self w1 = (Return self', w2) ->
  exists src m g op,
    data (config w1) = Some src /\
    model (config w) = Some m /\
    train_op self' = Some op /\
    match call with
    | NewParameterServer ps _ =>
        (kwarg "gpu" ps = "gpu" \/ kwarg "gpu" ps = "cpu") /\
        SyncMultiGPUParameterServerBuilder_build
          (tower (config w)) (kwarg "gpu" ps) src m g = (Return op, graph w2)
    | NewReplicated _ =>
        exists post,
          SyncMultiGPUReplicatedBuilder_build (tower (config w)) src m g
            = (Return (op, post), graph w2)
    | NewAsync sg =>
        AsyncMultiGPUBuilder_build (tower (config w)) (kwarg true sg) src m g
          = (Return op, graph w2)
    end.
Proof.
  intros Hc Hs.
  destruct (construct_returns_inv _ _ Hc)
    as (Hcls & Hsrc & Hm & _ & _ & _).
  pose proof (construct_world call w) as Hw. rewrite Hc in Hw. simpl in Hw.
  pose proof (apply_prefetch_policy_frame (Some (gpu_prefetch_of call)) w) as Hfr.
  cbv zeta in Hfr. rewrite <- Hw in Hfr.
  destruct Hfr as (_ & _ & Hmodel & Htower & _).
  destruct (_setup_returns _ _ Hs)
    as (src & m & desc & g1 & cbs & g2 & op & extra &
        Hsrc' & Hm' & _ & _ & Hb & Hself & _).
  exists src, m, g2, op.
  split; [ rewrite <- Hsrc; exact Hsrc' | ].
  split; [ rewrite <- Hmodel, <- Hm; exact Hm' | ].
  split; [ subst self'; reflexivity | ].
  apply build_plan_returns in Hb. rewrite Hcls, Htower in Hb.
  destruct call as [ps gp | gp | sg]; simpl in Hb.
  - split; [ | exact (proj1 Hb) ].
    rewrite construct_table in Hc.
    destruct (apply_prefetch_policy _ w) as [[e|[]] w0]; [ discriminate | ].
    cbv zeta in Hc.
    destruct (ps_device_ok (kwarg "gpu" ps)) eqn:Hok; [ | discriminate ].
    unfold ps_device_ok in Hok. simpl in Hok.
    destruct (String.eqb_spec (kwarg "gpu" ps) "gpu"); [ left; assumption | ].
    destruct (String.eqb_spec (kwarg "gpu" ps) "cpu"); [ right; assumption | ].
    discriminate Hok.
  - destruct Hb as (post & Hb & _). exists post. exact Hb.
  - exact (proj1 Hb).
Qed.

(** X9: why [_setup] can fail.  When it raises, the config is as it was
    (no hook has been registered, even if the input source's setup had
    returned some) and the exception is either the [AttributeError] of
    a trainer without input source or model, or the exception that the
    input phase or, after it, the builder raised, with the graph as that
    collaborator left it. *)
Theorem setup_failure_causes (self : Trainer) (w w' : World) (e : Exn) :
  _setup self w = (Raise e, w') ->
  config w' = config w /\ gpu_available w' = gpu_available w /\
  match _input_source self, self_model self with
  | None, _ => e = AttributeError "setup" /\ graph w' = graph w
  | Some _, None => e = AttributeError "get_inputs_desc" /\ graph w' = graph w
  | Some src, Some m =>
      input_phase m src (graph w) = (Raise e, graph w') \/
      exists cbs g2,
        input_phase m src (graph w) = (Return cbs, g2) /\
        match cls self with
        | ParameterServerCls ps =>
            SyncMultiGPUParameterServerBuilder_build
              (tower (config w)) ps src m g2 = (Raise e, graph w')
        | ReplicatedCls =>
            SyncMultiGPUReplicatedBuilder_build (tower (config w)) src m g2
              = (Raise e, graph w')
        | AsyncCls sg =>
            AsyncMultiGPUBuilder_build (tower (config w)) sg src m g2
              = (Raise e, graph w')
        end
  end.
Proof.
  rewrite _setup_table. unfold input_phase.
  destruct (_input_source self) as [src|];
    [ | intros H; inversion H; subst; auto ].
  destruct (self_model self) as [m|];
    [ | intros H; inversion H; subst; auto ].
  destruct (get_inputs_desc m (graph w)) as [[e1|desc] g1];
    [ intros H; inversion H; subst; simpl; auto | ].
  destruct (input_setup src desc g1) as [[e2|cbs] g2];
    [ intros H; inversion H; subst; simpl; auto | ].
  destruct (build_plan (cls self) (tower (config w)) src m g2)
    as [[e3|[op extra]] g3] eqn:Eb; [ | discriminate ].
  intros H; inversion H; subst; simpl.
  do 2 (split; [ reflexivity | ]).
  right. exists cbs, g2. split; [ reflexivity | ].
  exact (build_plan_raises _ _ _ _ _ Eb).
Qed.

(** ** The hook of the replicated trainer *)

Lemma hook_runs_at_triggers_only (post : Op) (rest : list LifecyclePoint) :
  ~ In BeforeTrain rest ->
  run_count (post_init_hook post) rest = triggers rest.
Proof.
  unfold run_count, triggers.
  induction rest as [|p rest IH]; intros Hno; [ reflexivity | ].
  assert (Hrest : ~ In BeforeTrain rest) by (intros Hin; apply Hno; right; exact Hin).
  destruct p; simpl.
  - exfalso. apply Hno. left. reflexivity.
  - apply IH, Hrest.
  - f_equal. apply IH, Hrest.
Qed.

(** C2, as the code has it: the replicated trainer's [_setup] puts, at
    the end of the callback list, a [RunOp] hook on the second operation
    its builder returned, with [run_before], [run_as_trigger] and
    [verbose] all on.  Over a training run the hook therefore runs
    before any step has been executed, and once more at every trigger:
    one plus the number of triggers, in all. *)
Theorem replicated_setup_registers_sync_hook
    (self self' : Trainer) (w w' : World) :
  cls self = ReplicatedCls ->
  _setup self w = (Return self', w') ->
  exists src m g op post cbs,
    SyncMultiGPUReplicatedBuilder_build (tower (config w)) src m g
      = (Return (op, post), graph w') /\
    let cb := post_init_hook post in
    callbacks (config w')
      = (callbacks (config w) ++ cbs ++ [RunOpCallback cb])%list /\
    setup_func cb tt = post /\
    run_before cb = true /\ run_as_trigger cb = true /\ verbose cb = true /\
    forall run, training_run run ->
      steps_before_first_run cb run = Some 0%nat /\
      run_count cb run = S (triggers run).
Proof.
  intros Hcls H.
  destruct (_setup_returns _ _ H)
    as (src & m & desc & g1 & cbs & g2 & op & extra &
        _ & _ & _ & _ & Hb & _ & Hcfg).
  rewrite Hcls in Hb. unfold build_plan, gbind, gret in Hb.
  destruct (SyncMultiGPUReplicatedBuilder_build (tower (config w)) src m g2)
    as [[e|[op' post]] g3] eqn:Eb; inversion Hb; subst; clear Hb.
  exists src, m, g2, op, post, cbs.
  split; [ exact Eb | ].
  cbv zeta. rewrite Hcfg. simpl.
  do 5 (split; [ reflexivity | ]).
  intros run (rest & -> & Hno). split; [ reflexivity | ].
  change (run_count (post_init_hook post) (BeforeTrain :: rest))
    with (S (run_count (post_init_hook post) rest)).
  rewrite (@hook_runs_at_triggers_only post rest Hno). reflexivity.
Qed.

(** ** SyncMultiGPUTrainer *)

(** C9: [SyncMultiGPUTrainer(config)] is
    [SyncMultiGPUTrainerParameterServer(config, ps_device='gpu',
    gpu_prefetch=True)]: on every world the two calls end alike, with the
    same trainer, of the parameter-server class on 'gpu', or the same
    exception, and the same config; followed by [_setup] they give the
    same [train_op] and the same callback list. *)
Theorem SyncMultiGPUTrainer_is_parameter_server_on_gpu (w : World) :
  SyncMultiGPUTrainer w
    = SyncMultiGPUTrainerParameterServer (Some "gpu") (Some true) w /\
  bind SyncMultiGPUTrainer _setup w
    = bind (SyncMultiGPUTrainerParameterServer (Some "gpu") (Some true))
           _setup w /\
  match fst (SyncMultiGPUTrainer w) with
  | Return self => cls self = ParameterServerCls "gpu"
  | Raise _ => True
  end.
Proof.
  assert (Heq : SyncMultiGPUTrainer w
    = SyncMultiGPUTrainerParameterServer (Some "gpu") (Some true) w)
    by reflexivity.
  split; [ exact Heq | split ].
  - unfold bind. rewrite Heq. reflexivity.
  - change SyncMultiGPUTrainer
      with (construct (NewParameterServer (Some "gpu") None)).
    rewrite construct_table.
    destruct (apply_prefetch_policy
                (Some (gpu_prefetch_of (NewParameterServer (Some "gpu") None))) w)
      as [[e|[]] w1]; simpl; auto.
Qed.

(** ** build_on_multi_tower *)

Lemma build_each_length (R : Type) (func : TowerContext -> GM R)
    (towers : list Z) (devices : option (list string)) (independent : bool) :
  forall (idx : nat) (g g' : Graph) (rs : list R),
    build_each func idx towers devices independent g = (Return rs, g') ->
    List.length rs = List.length towers.
Proof.
  induction towers as [|t rest IH]; intros idx g g' rs H; simpl in H.
  - inversion H. reflexivity.
  - unfold gbind, gret in H.
    destruct (func _ g) as [[e|r] g1]; [ discriminate | ].
    destruct (build_each func (S idx) rest devices independent g1)
      as [[e|rs'] g2] eqn:E; [ discriminate | ].
    inversion H; subst. simpl. f_equal. exact (IH _ _ _ _ E).
Qed.

(** C6: called with an explicit device list that does not have one
    device per tower, [build_on_multi_tower] raises an assertion error
    and hands the graph back as it found it: the tower function has not
    been invoked, no replica has been built. *)
Theorem build_on_multi_tower_rejects_device_mismatch
    (R : Type) (func : TowerContext -> GM R) (towers : list Z)
    (ds : list string) (use_vs : option bool) (g : Graph) :
  List.length ds <> List.length towers ->
  build_on_multi_tower func towers (Some ds) use_vs g
    = (Raise (AssertionError None), g).
Proof.
  intros Hne.
  unfold build_on_multi_tower, build_on_towers.
  apply Nat.eqb_neq in Hne. rewrite Hne. reflexivity.
Qed.

End Properties.

(** * The properties at work on the concrete instance *)

Lemma parameter_server_rejects_ps_device_witness :
  "tpu" <> "gpu" /\ "tpu" <> "cpu" /\
  let out := SyncMultiGPUTrainerParameterServer (Some "tpu") None world_two_gpus in
  is_assertion_error (fst out) = true /\
  graph (snd out) = graph world_two_gpus /\
  callbacks (config (snd out)) = callbacks (config world_two_gpus) /\
  (is_return (fst (apply_prefetch_policy (Some (kwarg true None)) world_two_gpus))
     = true ->
   fst out = Raise (AssertionError (Some "tpu"))).
Proof.
  assert (Hg : "tpu" <> "gpu") by (apply String.eqb_neq; reflexivity).
  assert (Hc : "tpu" <> "cpu") by (apply String.eqb_neq; reflexivity).
  split; [ exact Hg | split; [ exact Hc | ] ].
  exact (@parameter_server_rejects_ps_device example_universe "tpu" None
           world_two_gpus Hg Hc).
Defined.

Lemma construct_rejects_missing_fields_witness :
  (model (config world_no_model) = None \/
   (data (config world_no_model) = None /\
    dataflow (config world_no_model) = None)) /\
  construct (NewReplicated None) world_no_model
    = (Raise (AssertionError None), world_no_model).
Proof.
  assert (H : model (config world_no_model) = None \/
              (data (config world_no_model) = None /\
               dataflow (config world_no_model) = None))
    by (left; reflexivity).
  split; [ exact H | ].
  exact (@construct_rejects_missing_fields example_universe
           (NewReplicated None) world_no_model H).
Defined.

(** C4 fails on a config that carries both sources: the policy returns
    and the constructors go through, with both still set. *)
Lemma both_sources_survive_the_policy :
  required_fields_ok (config world_both_sources) = true /\
  fst (apply_prefetch_policy None world_both_sources) = Return tt /\
  ~ exactly_one_source
      (config (snd (apply_prefetch_policy None world_both_sources))) /\
  is_return (fst (construct (NewAsync None) world_both_sources)) = true /\
  ~ exactly_one_source
      (config (snd (construct (NewAsync None) world_both_sources))).
Proof.
  repeat split; try reflexivity; intros H; discriminate H.
Qed.

Lemma normalization_leaves_one_source_witness :
  required_fields_ok (config world_two_gpus) = true /\
  is_some (data (config world_two_gpus))
    && is_some (dataflow (config world_two_gpus)) = false /\
  let after_policy := config (snd (apply_prefetch_policy None world_two_gpus)) in
  let after_construct :=
    config (snd (construct (NewParameterServer None None) world_two_gpus)) in
  (is_some (data after_policy) = true /\ dataflow after_policy = None /\
   exactly_one_source after_policy) /\
  (is_some (data after_construct) = true /\ dataflow after_construct = None /\
   exactly_one_source after_construct).
Proof.
  split; [ reflexivity | split; [ reflexivity | ] ].
  exact (@normalization_leaves_one_source example_universe None
           (NewParameterServer None None) world_two_gpus eq_refl eq_refl).
Defined.

(** C3 fails for the async trainer: whatever is passed to its
    constructor, on two towers with a GPU at hand the input source comes
    out wrapped. *)
Lemma async_trainer_always_stages :
  let wrapped :=
    Some (StagingInputWrapper (Some (@OtherInput example_universe "feed"))
            ["/gpu:0"; "/gpu:1"]) in
  data (config (snd (construct (NewAsync None) world_feed_two_gpus))) = wrapped /\
  data (config (snd (construct (NewAsync (Some true)) world_feed_two_gpus)))
    = wrapped /\
  data (config (snd (construct (NewAsync (Some false)) world_feed_two_gpus)))
    = wrapped.
Proof.
  repeat split; reflexivity.
Qed.

Lemma gpu_prefetch_decides_staging_witness :
  required_fields_ok (config world_feed_two_gpus) = true /\
  data (config (snd (construct (NewReplicated (Some false)) world_feed_two_gpus)))
    = Some (OtherInput "feed").
Proof.
  split; [ reflexivity | ].
  exact (@gpu_prefetch_decides_staging example_universe
           (NewReplicated (Some false)) world_feed_two_gpus eq_refl).
Defined.

Lemma setup_stores_apply_op_witness :
  @_setup example_universe example_collaborators
     (new_trainer (AsyncCls true)) world_constructed
    = (Return (ready_trainer (AsyncCls true) "apply_async"), world_set_up []) /\
  exists src m g op,
    _input_source (new_trainer (AsyncCls true)) = Some src /\
    self_model (new_trainer (AsyncCls true)) = Some m /\
    train_op (ready_trainer (AsyncCls true) "apply_async") = Some op /\
    @AsyncMultiGPUBuilder_build example_universe example_collaborators
       (tower (config world_constructed)) true src m g
      = (Return op, graph (world_set_up [])).
Proof.
  split; [ reflexivity | ].
  exact (@setup_stores_apply_op example_universe example_collaborators
           (new_trainer (AsyncCls true))
           (ready_trainer (AsyncCls true) "apply_async")
           world_constructed (world_set_up []) eq_refl).
Defined.

(** C2 fails on the number of runs: the hook that the replicated
    trainer registers runs three times over a run with two triggers. *)
Lemma post_init_sync_runs_at_every_trigger :
  let hook := @post_init_hook example_universe "post_init_sync" in
  construct (NewReplicated None) world_two_gpus
    = (Return (new_trainer ReplicatedCls), world_constructed) /\
  @_setup example_universe example_collaborators
     (new_trainer ReplicatedCls) world_constructed
    = (Return (ready_trainer ReplicatedCls "apply_replicated"),
       world_set_up [RunOpCallback hook]) /\
  training_run example_run /\
  run_count hook example_run = 3%nat /\
  run_count hook example_run <> 1%nat.
Proof.
  cbv zeta. split; [ reflexivity | split; [ reflexivity | split ] ].
  - exists [Step; Trigger; Step; Trigger]. split; [ reflexivity | ].
    simpl. intros [H | [H | [H | [H | []]]]]; discriminate H.
  - split; [ reflexivity | intros H; discriminate H ].
Qed.

Lemma replicated_setup_registers_sync_hook_witness :
  cls (new_trainer ReplicatedCls) = ReplicatedCls /\
  exists src m g op post cbs,
    @SyncMultiGPUReplicatedBuilder_build example_universe example_collaborators
       (tower (config world_constructed)) src m g
      = (Return (op, post),
         graph (world_set_up
                  [RunOpCallback (@post_init_hook example_universe "post_init_sync")])) /\
    let cb := post_init_hook post in
    callbacks
      (config (world_set_up
                 [RunOpCallback (@post_init_hook example_universe "post_init_sync")]))
      = (callbacks (config world_constructed) ++ cbs ++ [RunOpCallback cb])%list /\
    setup_func cb tt = post /\
    run_before cb = true /\ run_as_trigger cb = true /\ verbose cb = true /\
    forall run, training_run run ->
      steps_before_first_run cb run = Some 0%nat /\
      run_count cb run = S (triggers run).
Proof.
  split; [ reflexivity | ].
  exact (@replicated_setup_registers_sync_hook example_universe
           example_collaborators
           (new_trainer ReplicatedCls)
           (ready_trainer ReplicatedCls "apply_replicated")
           world_constructed
           (world_set_up
              [RunOpCallback (@post_init_hook example_universe "post_init_sync")])
           eq_refl eq_refl).
Defined.

Lemma build_on_multi_tower_rejects_device_mismatch_witness :
  List.length ["/gpu:0"] <> List.length [0; 1]%Z /\
  @build_on_multi_tower example_universe example_collaborators string
     example_tower_func [0; 1]%Z (Some ["/gpu:0"]) None []
    = (Raise (AssertionError None), []).
Proof.
  assert (H : List.length ["/gpu:0"] <> List.length [0; 1]%Z)
    by (simpl; lia).
  split; [ exact H | ].
  exact (@build_on_multi_tower_rejects_device_mismatch example_universe
           example_collaborators string example_tower_func [0; 1]%Z
           ["/gpu:0"] None [] H).
Defined.

(** With one device per tower the same call builds one replica per
    tower, in order. *)
Example build_on_multi_tower_two_towers :
  @build_on_multi_tower example_universe example_collaborators string
     example_tower_func [0; 1]%Z (Some ["/gpu:0"; "/gpu:1"]) None []
    = (Return ["cost@/gpu:0"; "cost@/gpu:1"],
       ["replica on /gpu:0"; "replica on /gpu:1"]).
Proof. reflexivity. Qed.


Lemma staging_devices_follow_towers_witness :
  required_fields_ok (config world_feed_two_gpus) = true /\
  (1 <? List.length (tower (config world_feed_two_gpus)))%nat
    && kwarg true None = true /\
  gpu_available world_feed_two_gpus = true /\
  isinstance_staging_or_dummy (data (config world_feed_two_gpus)) = false /\
  exists src devices,
    data (config (snd (apply_prefetch_policy None world_feed_two_gpus)))
      = Some (StagingInputWrapper (Some src) devices) /\
    List.length devices = List.length (tower (config world_feed_two_gpus)) /\
    (forall i k, nth_error (tower (config world_feed_two_gpus)) i = Some k ->
                 nth_error devices i = Some ("/gpu:" ++ str k)) /\
    (NoDup (tower (config world_feed_two_gpus)) -> NoDup devices).
Proof.
  do 4 (split; [ reflexivity | ]).
  exact (@staging_devices_follow_towers example_universe None
           world_feed_two_gpus eq_refl eq_refl eq_refl eq_refl).
Defined.

Lemma setup_after_construct_returns_witness :
  construct (NewReplicated None) world_two_gpus
    = (Return (new_trainer ReplicatedCls), world_constructed) /\
  exists self' w2,
    @_setup example_universe example_collaborators
       (new_trainer ReplicatedCls) world_constructed = (Return self', w2) /\
    is_some (train_op self') = true /\
    cls self' = class_of (NewReplicated None).
Proof.
  split; [ reflexivity | ].
  exact (@setup_after_construct_returns example_universe example_collaborators
           (NewReplicated None) world_two_gpus world_constructed
           (new_trainer ReplicatedCls)
           (fun _ _ => eq_refl) (fun _ _ _ => eq_refl)
           (fun _ _ _ _ _ => eq_refl) (fun _ _ _ _ => eq_refl)
           (fun _ _ _ _ _ => eq_refl) eq_refl).
Defined.

Lemma builder_receives_constructor_arguments_witness :
  construct (NewAsync None) world_two_gpus
    = (Return (new_trainer (AsyncCls true)), world_constructed) /\
  @_setup example_universe example_collaborators
     (new_trainer (AsyncCls true)) world_constructed
    = (Return (ready_trainer (AsyncCls true) "apply_async"), world_set_up []) /\
  exists src m g op,
    data (config world_constructed) = Some src /\
    model (config world_two_gpus) = Some m /\
    train_op (ready_trainer (AsyncCls true) "apply_async") = Some op /\
    @AsyncMultiGPUBuilder_build example_universe example_collaborators
       (tower (config world_two_gpus)) (kwarg true None) src m g
      = (Return op, graph (world_set_up [])).
Proof.
  split; [ reflexivity | split; [ reflexivity | ] ].
  exact (@builder_receives_constructor_arguments example_universe
           example_collaborators (NewAsync None)
           world_two_gpus world_constructed (world_set_up [])
           (new_trainer (AsyncCls true))
           (ready_trainer (AsyncCls true) "apply_async") eq_refl eq_refl).
Defined.

Lemma setup_failure_causes_witness :
  let w' := mkWorld (config world_constructed)
              (["input_setup"; "tower0"] : @Graph example_universe) true in
  @_setup example_universe collaborators_failing_build
     (new_trainer (ParameterServerCls "cpu")) world_constructed
    = (Raise (Raised "shape mismatch"), w') /\
  config w' = config world_constructed /\
  (@input_phase example_universe collaborators_failing_build
      "resnet" staged_imagenet (graph world_constructed)
     = (Raise (Raised "shape mismatch"), graph w') \/
   exists cbs g2,
     @input_phase example_universe collaborators_failing_build
        "resnet" staged_imagenet (graph world_constructed)
       = (Return cbs, g2) /\
     @SyncMultiGPUParameterServerBuilder_build example_universe
        collaborators_failing_build
        (tower (config world_constructed)) "cpu" staged_imagenet "resnet" g2
       = (Raise (Raised "shape mismatch"), graph w')).
Proof.
  cbv zeta. split; [ reflexivity | ].
  pose proof (@setup_failure_causes example_universe
                collaborators_failing_build
                (new_trainer (ParameterServerCls "cpu")) world_constructed
                (mkWorld (config world_constructed)
                   (["input_setup"; "tower0"] : @Graph example_universe) true)
                (Raised "shape mismatch") eq_refl) as H.
  split; [ exact (proj1 H) | exact (proj2 (proj2 H)) ].
Defined.
